(** * tensorforce/agents/ppo.py: the PPO agent's configuration layer

    [ProximalPolicyOptimization.__init__] turns a flat set of keyword
    arguments into the nested dictionaries that the constructor of
    [TensorforceAgent] expects, checks that a critic network and a critic
    optimizer come together, and delegates to the superclass.

    The body is embedded statement by statement.  Its expressions read
    the frame (a finite map from the names of the local variables to their
    values) and change nothing; its statements run in a small state and
    exception monad over the frame, the instance dictionary that receives
    [self.spec], and the list of superclass calls: the callee of
    [super().__init__(...)] is another module, so the call is recorded with
    the keyword arguments it receives. *)

From Stdlib Require Import ZArith Floats.
From stdpp Require Import gmap strings list fin_maps.

Set Warnings "-register-all,-inexact-float".

(** ** Python values *)

(** The objects that reach this constructor: [None], booleans, integers,
    floats (binary64, as in CPython), strings, lists or tuples, and
    dictionaries.  A dictionary keeps its items in insertion order, which
    is what both [dict] and [OrderedDict] do. *)
Inductive pyval : Type :=
| VNone
| VBool (b : bool)
| VInt (z : Z)
| VFloat (f : float)
| VStr (s : string)
| VList (l : list pyval)
| VDict (items : list (string * pyval)).

(** Keyword arguments of a call, in the order they are written. *)
Definition kwargs : Type := list (string * pyval).

(** [kw.get(k)]: the first item under key [k]. *)
Fixpoint get_item (k : string) (kw : kwargs) : option pyval :=
  match kw with
  | [] => None
  | (k', v) :: rest => if String.eqb k k' then Some v else get_item k rest
  end.

(** [d.get(k)] for a value that may or may not be a dictionary. *)
Definition dict_get (k : string) (d : pyval) : option pyval :=
  match d with
  | VDict items => get_item k items
  | _ => None
  end.

(** [list(d)]: the keys of a dictionary, in order. *)
Definition dict_keys (d : pyval) : list string :=
  match d with
  | VDict items => map fst items
  | _ => []
  end.

(** [v is None], on values. *)
Definition is_None_val (v : pyval) : bool :=
  match v with
  | VNone => true
  | _ => false
  end.

(** ** Expressions and statements *)

Inductive exn : Type :=
| AssertionError
| NameError (x : string).

(** An expression of the body (a name, a literal, a [dict(...)] call, an
    [is None] test, a conditional expression) reads the frame and changes
    nothing: it is a function of the local variables that gives a value
    or raises. *)
Definition E (A : Type) : Type := gmap string pyval -> exn + A.

(** Reading a local variable; an unbound name raises. *)
Definition var (x : string) : E pyval :=
  fun l =>
    match l !! x with
    | Some v => inr v
    | None => inl (NameError x)
    end.

(** A literal. *)
Definition lit (v : pyval) : E pyval := fun _ => inr v.

(** Keyword arguments are evaluated left to right. *)
Fixpoint keywords (items : list (string * E pyval)) : E kwargs :=
  fun l =>
    match items with
    | [] => inr []
    | (k, e) :: rest =>
        match e l with
        | inl err => inl err
        | inr v =>
            match keywords rest l with
            | inl err => inl err
            | inr vs => inr ((k, v) :: vs)
            end
        end
    end.

(** [dict(k1=e1, ...)] and [OrderedDict(k1=e1, ...)]. *)
Definition dict (items : list (string * E pyval)) : E pyval :=
  fun l =>
    match keywords items l with
    | inl err => inl err
    | inr kw => inr (VDict kw)
    end.

Definition OrderedDict (items : list (string * E pyval)) : E pyval :=
  dict items.

(** [e is None] and [e is not None]. *)
Definition is_None (e : E pyval) : E bool :=
  fun l =>
    match e l with
    | inl err => inl err
    | inr v => inr (is_None_val v)
    end.

Definition is_not_None (e : E pyval) : E bool :=
  fun l =>
    match e l with
    | inl err => inl err
    | inr v => inr (negb (is_None_val v))
    end.

(** The conditional expression [a if c else b]: the condition first. *)
Definition ifexp (a : E pyval) (c : E bool) (b : E pyval) : E pyval :=
  fun l =>
    match c l with
    | inl err => inl err
    | inr t => if t then a l else b l
    end.

(** What a call of the constructor can change or emit. *)
Record state : Type := State {
  locals : gmap string pyval;          (* the frame's local variables *)
  self_dict : gmap string pyval;       (* attributes set on [self] *)
  super_calls : list kwargs            (* calls of [super().__init__] *)
}.

(** A statement runs from a state to a state, and ends normally or with
    an exception; the state it stopped in is kept either way. *)
Definition M (A : Type) : Type := state -> state * (exn + A).

Definition ret {A} (x : A) : M A := fun st => (st, inr x).

Definition bind {A B} (m : M A) (k : A -> M B) : M B :=
  fun st =>
    match m st with
    | (st', inl e) => (st', inl e)
    | (st', inr x) => k x st'
    end.

Definition raise {A} (e : exn) : M A := fun st => (st, inl e).

(** Evaluating an expression in the current frame. *)
Definition evaluate {A} (e : E A) : M A := fun st => (st, e (locals st)).

Declare Scope py_scope.
Delimit Scope py_scope with py.
Notation "x <- m ; k" := (bind m (fun x => k))
  (at level 100, m at next level, right associativity) : py_scope.
Notation "m ;; k" := (bind m (fun _ => k))
  (at level 100, right associativity) : py_scope.
Local Open Scope py_scope.

(** [x = e]: evaluate, then bind or rebind [x] in the frame. *)
Definition assign (x : string) (e : E pyval) : M unit :=
  v <- evaluate e;
  fun st => (State (<[x := v]> (locals st)) (self_dict st) (super_calls st), inr tt).

Notation "x ::= e" := (assign x e) (at level 90, no associativity) : py_scope.

(** [self.x = e]. *)
Definition setattr_self (x : string) (e : E pyval) : M unit :=
  v <- evaluate e;
  fun st => (State (locals st) (<[x := v]> (self_dict st)) (super_calls st), inr tt).

(** The statement [if c: s1 else: s2]. *)
Definition if_ (c : E bool) (s1 s2 : M unit) : M unit :=
  t <- evaluate c; if t then s1 else s2.

(** [assert c]. *)
Definition assert (c : E bool) : M unit :=
  t <- evaluate c; if t then ret tt else raise AssertionError.

(** [super().__init__(k1=e1, ...)].  The callee is [TensorforceAgent],
    which is not part of this module: the call is recorded with the
    arguments it receives and taken to return. *)
Definition super_init (items : list (string * E pyval)) : M unit :=
  kw <- evaluate (keywords items);
  fun st => (State (locals st) (self_dict st) (super_calls st ++ [kw]), inr tt).

(** ** ProximalPolicyOptimization *)

Module ProximalPolicyOptimization.

(** The parameters of [__init__] once the call has bound them (positional
    or by keyword, defaults filled in), in the order of the signature. *)
Record Args : Type := mkArgs {
  (* Required *)
  states : pyval;
  actions : pyval;
  max_episode_timesteps : pyval;
  batch_size : pyval;
  (* Network *)
  network : pyval;
  (* Memory *)
  memory : pyval;
  (* Optimization *)
  update_frequency : pyval;
  learning_rate : pyval;
  subsampling_fraction : pyval;
  optimization_steps : pyval;
  (* Reward estimation *)
  likelihood_ratio_clipping : pyval;
  discount : pyval;
  estimate_terminal : pyval;
  (* Critic *)
  critic_network : pyval;
  critic_optimizer : pyval;
  (* Preprocessing *)
  preprocessing : pyval;
  (* Exploration *)
  exploration : pyval;
  variable_noise : pyval;
  (* Regularization *)
  l2_regularization : pyval;
  entropy_regularization : pyval;
  (* TensorFlow etc *)
  name : pyval;
  device : pyval;
  parallel_interactions : pyval;
  seed : pyval;
  execution : pyval;
  saver : pyval;
  summarizer : pyval;
  recorder : pyval;
  config : pyval
}.

(** A call that passes the four required arguments only: every other
    parameter takes the default of the signature, lines 204 to 226.  A
    decimal literal such as [3e-4] stands for the nearest binary64 number,
    here as in Python. *)
Definition default_args (states actions max_episode_timesteps batch_size : pyval) : Args :=
  {| states := states; actions := actions;
     max_episode_timesteps := max_episode_timesteps; batch_size := batch_size;
     network := VStr "auto";
     memory := VNone;
     update_frequency := VNone; learning_rate := VFloat 3e-4;
     subsampling_fraction := VFloat 0.33; optimization_steps := VInt 10;
     likelihood_ratio_clipping := VFloat 0.2; discount := VFloat 0.99;
     estimate_terminal := VBool false;
     critic_network := VNone; critic_optimizer := VNone;
     preprocessing := VNone;
     exploration := VFloat 0.0; variable_noise := VFloat 0.0;
     l2_regularization := VFloat 0.0; entropy_regularization := VFloat 0.0;
     name := VStr "agent"; device := VNone; parallel_interactions := VInt 1;
     seed := VNone; execution := VNone; saver := VNone;
     summarizer := VNone; recorder := VNone; config := VNone |}.

(** The frame on entry: each parameter name bound to its argument. *)
Definition bind_parameters (a : Args) : gmap string pyval :=
  list_to_map
    [("states", states a); ("actions", actions a);
     ("max_episode_timesteps", max_episode_timesteps a);
     ("batch_size", batch_size a);
     ("network", network a);
     ("memory", memory a);
     ("update_frequency", update_frequency a);
     ("learning_rate", learning_rate a);
     ("subsampling_fraction", subsampling_fraction a);
     ("optimization_steps", optimization_steps a);
     ("likelihood_ratio_clipping", likelihood_ratio_clipping a);
     ("discount", discount a);
     ("estimate_terminal", estimate_terminal a);
     ("critic_network", critic_network a);
     ("critic_optimizer", critic_optimizer a);
     ("preprocessing", preprocessing a);
     ("exploration", exploration a);
     ("variable_noise", variable_noise a);
     ("l2_regularization", l2_regularization a);
     ("entropy_regularization", entropy_regularization a);
     ("name", name a); ("device", device a);
     ("parallel_interactions", parallel_interactions a);
     ("seed", seed a); ("execution", execution a); ("saver", saver a);
     ("summarizer", summarizer a); ("recorder", recorder a);
     ("config", config a)].

(** The body of [__init__], ppo.py lines 227 to 292. *)
Definition __init__ : M unit :=
  setattr_self "spec" (OrderedDict
    [("agent", lit (VStr "ppo"));
     ("states", var "states"); ("actions", var "actions");
     ("max_episode_timesteps", var "max_episode_timesteps");
     ("batch_size", var "batch_size");
     ("network", var "network");
     ("memory", var "memory");
     ("update_frequency", var "update_frequency");
     ("learning_rate", var "learning_rate");
     ("subsampling_fraction", var "subsampling_fraction");
     ("optimization_steps", var "optimization_steps");
     ("likelihood_ratio_clipping", var "likelihood_ratio_clipping");
     ("discount", var "discount");
     ("estimate_terminal", var "estimate_terminal");
     ("critic_network", var "critic_network");
     ("critic_optimizer", var "critic_optimizer");
     ("preprocessing", var "preprocessing");
     ("exploration", var "exploration"); ("variable_noise", var "variable_noise");
     ("l2_regularization", var "l2_regularization");
     ("entropy_regularization", var "entropy_regularization");
     ("name", var "name"); ("device", var "device");
     ("parallel_interactions", var "parallel_interactions"); ("seed", var "seed");
     ("execution", var "execution"); ("saver", var "saver");
     ("summarizer", var "summarizer"); ("recorder", var "recorder");
     ("config", var "config")]) ;;

  "policy" ::= dict [("network", var "network"); ("temperature", lit (VFloat 1.0))] ;;
  if_ (is_None (var "memory"))
    ("memory" ::= dict [("type", lit (VStr "recent"))])
    ("memory" ::= dict [("type", lit (VStr "recent")); ("capacity", var "memory")]) ;;
  if_ (is_None (var "update_frequency"))
    ("update" ::= dict [("unit", lit (VStr "episodes")); ("batch_size", var "batch_size")])
    ("update" ::= dict [("unit", lit (VStr "episodes")); ("batch_size", var "batch_size");
                        ("frequency", var "update_frequency")]) ;;
  "optimizer" ::= dict [("type", lit (VStr "adam")); ("learning_rate", var "learning_rate")] ;;
  "optimizer" ::= dict
    [("type", lit (VStr "subsampling_step")); ("optimizer", var "optimizer");
     ("fraction", var "subsampling_fraction")] ;;
  "optimizer" ::= dict [("type", lit (VStr "multi_step")); ("optimizer", var "optimizer");
                        ("num_steps", var "optimization_steps")] ;;
  "objective" ::= dict
    [("type", lit (VStr "policy_gradient")); ("ratio_based", lit (VBool true));
     ("clipping_value", var "likelihood_ratio_clipping")] ;;
  if_ (is_None (var "critic_network"))
    ("reward_estimation" ::= dict [("horizon", lit (VStr "episode")); ("discount", var "discount")] ;;
     "baseline_policy" ::= lit VNone ;;
     assert (is_None (var "critic_optimizer")) ;;
     "baseline_objective" ::= lit VNone)
    ("reward_estimation" ::= dict
       [("horizon", lit (VStr "episode")); ("discount", var "discount");
        ("estimate_horizon",
          ifexp (lit (VBool false)) (is_None (var "critic_network")) (lit (VStr "early")));
        ("estimate_terminal", var "estimate_terminal");
        ("estimate_advantage", lit (VBool true))] ;;
     "baseline_policy" ::= dict [("network", var "critic_network")] ;;
     assert (is_not_None (var "critic_optimizer")) ;;
     "baseline_objective" ::= dict [("type", lit (VStr "value")); ("value", lit (VStr "state"))]) ;;

  super_init
    [(* Agent *)
     ("states", var "states"); ("actions", var "actions");
     ("max_episode_timesteps", var "max_episode_timesteps");
     ("parallel_interactions", var "parallel_interactions");
     ("buffer_observe", lit (VBool true)); ("seed", var "seed");
     ("recorder", var "recorder"); ("config", var "config");
     (* Model *)
     ("name", var "name"); ("device", var "device"); ("execution", var "execution");
     ("saver", var "saver"); ("summarizer", var "summarizer");
     ("preprocessing", var "preprocessing"); ("exploration", var "exploration");
     ("variable_noise", var "variable_noise");
     ("l2_regularization", var "l2_regularization");
     (* TensorforceModel *)
     ("policy", var "policy"); ("memory", var "memory"); ("update", var "update");
     ("optimizer", var "optimizer"); ("objective", var "objective");
     ("reward_estimation", var "reward_estimation");
     ("baseline_policy", var "baseline_policy");
     ("baseline_optimizer", var "critic_optimizer");
     ("baseline_objective", var "baseline_objective");
     ("entropy_regularization", var "entropy_regularization")].

(** Constructing an agent: bind the parameters, run the body. *)
Definition construct (a : Args) : state * (exn + unit) :=
  __init__ (State (bind_parameters a) ∅ []).

(** The exception the construction ends with, if any. *)
Definition raised (a : Args) : option exn :=
  match snd (construct a) with
  | inl e => Some e
  | inr _ => None
  end.

(** The value of local variable [x] when the body is left, by return or
    by exception. *)
Definition local (x : string) (a : Args) : option pyval :=
  locals (fst (construct a)) !! x.

(** The calls of the superclass constructor the construction made. *)
Definition delegated (a : Args) : list kwargs :=
  super_calls (fst (construct a)).

(** *** The run in closed form

    What the body computes, read off as pure functions of the arguments.
    [construct_closed] below proves that running [__init__] gives exactly
    this. *)
Section ClosedForm.

Variable a : Args.

(** [self.spec], lines 227 to 244. *)
Definition spec_record : pyval :=
  VDict
    [("agent", VStr "ppo");
     ("states", states a); ("actions", actions a);
     ("max_episode_timesteps", max_episode_timesteps a);
     ("batch_size", batch_size a);
     ("network", network a);
     ("memory", memory a);
     ("update_frequency", update_frequency a);
     ("learning_rate", learning_rate a);
     ("subsampling_fraction", subsampling_fraction a);
     ("optimization_steps", optimization_steps a);
     ("likelihood_ratio_clipping", likelihood_ratio_clipping a);
     ("discount", discount a);
     ("estimate_terminal", estimate_terminal a);
     ("critic_network", critic_network a);
     ("critic_optimizer", critic_optimizer a);
     ("preprocessing", preprocessing a);
     ("exploration", exploration a); ("variable_noise", variable_noise a);
     ("l2_regularization", l2_regularization a);
     ("entropy_regularization", entropy_regularization a);
     ("name", name a); ("device", device a);
     ("parallel_interactions", parallel_interactions a); ("seed", seed a);
     ("execution", execution a); ("saver", saver a);
     ("summarizer", summarizer a); ("recorder", recorder a);
     ("config", config a)].

Definition policy_block : pyval :=
  VDict [("network", network a); ("temperature", VFloat 1.0)].

Definition memory_block : pyval :=
  if is_None_val (memory a)
  then VDict [("type", VStr "recent")]
  else VDict [("type", VStr "recent"); ("capacity", memory a)].

Definition update_block : pyval :=
  if is_None_val (update_frequency a)
  then VDict [("unit", VStr "episodes"); ("batch_size", batch_size a)]
  else VDict [("unit", VStr "episodes"); ("batch_size", batch_size a);
              ("frequency", update_frequency a)].

Definition adam_stage : pyval :=
  VDict [("type", VStr "adam"); ("learning_rate", learning_rate a)].

Definition subsampling_stage : pyval :=
  VDict [("type", VStr "subsampling_step"); ("optimizer", adam_stage);
         ("fraction", subsampling_fraction a)].

Definition optimizer_block : pyval :=
  VDict [("type", VStr "multi_step"); ("optimizer", subsampling_stage);
         ("num_steps", optimization_steps a)].

Definition objective_block : pyval :=
  VDict [("type", VStr "policy_gradient"); ("ratio_based", VBool true);
         ("clipping_value", likelihood_ratio_clipping a)].

(** The frame once line 262 has run: the parameters, with [memory]
    rebound, and the five blocks that do not depend on the critic. *)
Definition frame_262 : gmap string pyval :=
  <["objective" := objective_block]>
    (<["optimizer" := optimizer_block]>
      (<["update" := update_block]>
        (<["memory" := memory_block]>
          (<["policy" := policy_block]> (bind_parameters a))))).

(** The two shapes of the reward estimation, lines 264 and 269 to 273. *)
Definition reward_estimation_plain : pyval :=
  VDict [("horizon", VStr "episode"); ("discount", discount a)].

Definition reward_estimation_critic : pyval :=
  VDict [("horizon", VStr "episode"); ("discount", discount a);
         ("estimate_horizon", VStr "early");
         ("estimate_terminal", estimate_terminal a);
         ("estimate_advantage", VBool true)].

Definition baseline_policy_critic : pyval :=
  VDict [("network", critic_network a)].

Definition baseline_objective_critic : pyval :=
  VDict [("type", VStr "value"); ("value", VStr "state")].

(** The keyword arguments of the superclass call, lines 278 to 292, given
    the three critic-dependent blocks. *)
Definition super_kwargs (reward_estimation baseline_policy baseline_objective : pyval)
  : kwargs :=
  [("states", states a); ("actions", actions a);
   ("max_episode_timesteps", max_episode_timesteps a);
   ("parallel_interactions", parallel_interactions a);
   ("buffer_observe", VBool true); ("seed", seed a);
   ("recorder", recorder a); ("config", config a);
   ("name", name a); ("device", device a); ("execution", execution a);
   ("saver", saver a); ("summarizer", summarizer a);
   ("preprocessing", preprocessing a); ("exploration", exploration a);
   ("variable_noise", variable_noise a);
   ("l2_regularization", l2_regularization a);
   ("policy", policy_block); ("memory", memory_block); ("update", update_block);
   ("optimizer", optimizer_block); ("objective", objective_block);
   ("reward_estimation", reward_estimation);
   ("baseline_policy", baseline_policy);
   ("baseline_optimizer", critic_optimizer a);
   ("baseline_objective", baseline_objective);
   ("entropy_regularization", entropy_regularization a)].

(** The frame when the critic branch stops at, or has passed, its
    assertion. *)
Definition frame_at_assert (reward_estimation baseline_policy : pyval)
  : gmap string pyval :=
  <["baseline_policy" := baseline_policy]>
    (<["reward_estimation" := reward_estimation]> frame_262).

Definition closed_form : state * (exn + unit) :=
  let attrs : gmap string pyval := {["spec" := spec_record]} in
  if is_None_val (critic_network a) then
    let f := frame_at_assert reward_estimation_plain VNone in
    if is_None_val (critic_optimizer a) then
      (State (<["baseline_objective" := VNone]> f) attrs
             [super_kwargs reward_estimation_plain VNone VNone], inr tt)
    else (State f attrs [], inl AssertionError)
  else
    let f := frame_at_assert reward_estimation_critic baseline_policy_critic in
    if is_None_val (critic_optimizer a) then
      (State f attrs [], inl AssertionError)
    else
      (State (<["baseline_objective" := baseline_objective_critic]> f) attrs
             [super_kwargs reward_estimation_critic baseline_policy_critic
                           baseline_objective_critic], inr tt).

End ClosedForm.

(** *** Sample calls *)

(** Keyword overrides on top of an argument set. *)
Definition with_memory (n : pyval) (a : Args) : Args :=
  mkArgs (states a) (actions a) (max_episode_timesteps a) (batch_size a)
    (network a) n
    (update_frequency a) (learning_rate a) (subsampling_fraction a)
    (optimization_steps a)
    (likelihood_ratio_clipping a) (discount a) (estimate_terminal a)
    (critic_network a) (critic_optimizer a)
    (preprocessing a) (exploration a) (variable_noise a)
    (l2_regularization a) (entropy_regularization a)
    (name a) (device a) (parallel_interactions a) (seed a) (execution a)
    (saver a) (summarizer a) (recorder a) (config a).

Definition with_critic (net opt : pyval) (a : Args) : Args :=
  mkArgs (states a) (actions a) (max_episode_timesteps a) (batch_size a)
    (network a) (memory a)
    (update_frequency a) (learning_rate a) (subsampling_fraction a)
    (optimization_steps a)
    (likelihood_ratio_clipping a) (discount a) (estimate_terminal a)
    net opt
    (preprocessing a) (exploration a) (variable_noise a)
    (l2_regularization a) (entropy_regularization a)
    (name a) (device a) (parallel_interactions a) (seed a) (execution a)
    (saver a) (summarizer a) (recorder a) (config a).

(** [ProximalPolicyOptimization(states=dict(type='float', shape=(3,)),
    actions=dict(type='int', num_values=2), max_episode_timesteps=20,
    batch_size=4)]. *)
Definition sample_args : Args :=
  default_args
    (VDict [("type", VStr "float"); ("shape", VList [VInt 3])])
    (VDict [("type", VStr "int"); ("num_values", VInt 2)])
    (VInt 20) (VInt 4).

(** The same call with [memory=1000]. *)
Definition sample_args_memory : Args := with_memory (VInt 1000) sample_args.

(** The same call with [critic_network='auto', critic_optimizer='adam'],
    with the network only, and with the optimizer only. *)
Definition sample_args_critic : Args :=
  with_critic (VStr "auto") (VStr "adam") sample_args.

Definition sample_args_network_only : Args :=
  with_critic (VStr "auto") VNone sample_args.

Definition sample_args_optimizer_only : Args :=
  with_critic VNone (VStr "adam") sample_args.

End ProximalPolicyOptimization.

Import ProximalPolicyOptimization.

(** ** Further observations of a construction *)



(** The keywords of the superclass call whose value is the parameter of
    the same name, lines 280 to 291. *)
Definition passed_through : list string :=
  ["states"; "actions"; "max_episode_timesteps"; "parallel_interactions"; "seed";
   "recorder"; "config";
   "name"; "device"; "execution"; "saver"; "summarizer"; "preprocessing";
   "exploration"; "variable_noise"; "l2_regularization";
   "entropy_regularization"].

(** The parameters that reach the superclass only inside a block. *)
Definition folded_into_blocks : list string :=
  ["batch_size"; "network"; "update_frequency"; "learning_rate";
   "subsampling_fraction"; "optimization_steps"; "likelihood_ratio_clipping";
   "discount"; "estimate_terminal"; "critic_network"; "critic_optimizer"].

(** The local variables the body introduces besides its parameters. *)
Definition block_names : list string :=
  ["policy"; "update"; "optimizer"; "objective"; "reward_estimation";
   "baseline_policy"; "baseline_objective"].

(** One more keyword override for the sample calls. *)
Definition with_update_frequency (n : pyval) (a : Args) : Args :=
  mkArgs (states a) (actions a) (max_episode_timesteps a) (batch_size a)
    (network a) (memory a)
    n (learning_rate a) (subsampling_fraction a)
    (optimization_steps a)
    (likelihood_ratio_clipping a) (discount a) (estimate_terminal a)
    (critic_network a) (critic_optimizer a)
    (preprocessing a) (exploration a) (variable_noise a)
    (l2_regularization a) (entropy_regularization a)
    (name a) (device a) (parallel_interactions a) (seed a) (execution a)
    (saver a) (summarizer a) (recorder a) (config a).

(** The sample call with [update_frequency=2]. *)
Definition sample_args_frequency : Args :=
  with_update_frequency (VInt 2) sample_args.

(** * test/test_reward_estimation.py: the reward-estimation scenarios

    Each test method is a straight line of assignments of literals to
    locals and of calls of two methods of [UnittestBase], [start_tests] and
    [unittest].  The base class is another module: a run of a test method
    is the list of the calls it makes, each with its keyword arguments. *)

Module TestRewardEstimation.

(** A call [self.m(k1=v1, ...)]: the method and the keywords. *)
Definition call : Type := string * kwargs.

(** A statement takes the frame and the calls made so far to the new
    frame and calls, or raises. *)
Definition stmt : Type :=
  gmap string pyval * list call -> exn + (gmap string pyval * list call).

(** [x = e]. *)
Definition set_local (x : string) (e : E pyval) : stmt :=
  fun '(l, calls) =>
    match e l with
    | inl err => inl err
    | inr v => inr (<[x := v]> l, calls)
    end.

(** [self.m(k1=e1, ...)]. *)
Definition call_self (m : string) (items : list (string * E pyval)) : stmt :=
  fun '(l, calls) =>
    match keywords items l with
    | inl err => inl err
    | inr kw => inr (l, calls ++ [(m, kw)])
    end.

(** Statements in sequence; the first exception ends the run. *)
Fixpoint block (body : list stmt) : stmt :=
  fun st =>
    match body with
    | [] => inr st
    | s :: rest =>
        match s st with
        | inl err => inl err
        | inr st' => block rest st'
        end
    end.

(** A test method called on a fresh frame: the calls it makes. *)
Definition run (body : list stmt) : exn + list call :=
  match block body (∅, []) with
  | inl err => inl err
  | inr (_, calls) => inr calls
  end.


(** Lines 31 to 40. *)
Definition test_no_horizon_estimate : list stmt :=
  [call_self "start_tests" [("name", lit (VStr "no horizon estimate"))];

   (* zero horizon *)
   set_local "reward_estimation" (dict
     [("horizon", lit (VInt 0)); ("discount", lit (VFloat 0.99));
      ("estimate_horizon", lit (VBool false))]);
   call_self "unittest" [("reward_estimation", var "reward_estimation")];

   (* horizon longer than episode *)
   set_local "reward_estimation" (dict
     [("horizon", lit (VInt 10)); ("discount", lit (VFloat 0.99));
      ("estimate_horizon", lit (VBool false))]);
   call_self "unittest" [("reward_estimation", var "reward_estimation")]].

(** Lines 42 to 78. *)
Definition test_early_horizon_estimate : list stmt :=
  [call_self "start_tests" [("name", lit (VStr "early horizon estimate"))];

   set_local "reward_estimation" (dict
     [("horizon", lit (VInt 2)); ("estimate_horizon", lit (VStr "early"))]);
   call_self "unittest" [("reward_estimation", var "reward_estimation")];

   set_local "reward_estimation" (dict
     [("horizon", lit (VInt 2)); ("estimate_horizon", lit (VStr "early"));
      ("estimate_actions", lit (VBool true))]);
   set_local "baseline_objective" (lit (VStr "policy_gradient"));
   set_local "baseline_optimizer" (lit (VStr "adam"));
   call_self "unittest"
     [("exclude_bounded_action", lit (VBool true));
      ("reward_estimation", var "reward_estimation");
      ("baseline_objective", var "baseline_objective");
      ("baseline_optimizer", var "baseline_optimizer")];

   set_local "reward_estimation" (dict
     [("horizon", lit (VInt 2)); ("estimate_horizon", lit (VStr "early"));
      ("estimate_terminal", lit (VBool true))]);
   set_local "baseline_policy" (dict
     [("network", dict [("type", lit (VStr "auto")); ("size", lit (VInt 7));
                        ("depth", lit (VInt 1)); ("internal_rnn", lit (VInt 2))])]);
   set_local "baseline_objective" (lit (VStr "policy_gradient"));
   call_self "unittest"
     [("reward_estimation", var "reward_estimation");
      ("baseline_policy", var "baseline_policy");
      ("baseline_objective", var "baseline_objective")];

   set_local "reward_estimation" (dict
     [("horizon", lit (VInt 2)); ("estimate_horizon", lit (VStr "early"));
      ("estimate_actions", lit (VBool true)); ("estimate_terminal", lit (VBool true))]);
   set_local "baseline_policy" (dict
     [("network", dict [("type", lit (VStr "auto")); ("size", lit (VInt 7));
                        ("depth", lit (VInt 1)); ("internal_rnn", lit (VInt 1))]);
      ("distributions", dict [("float", lit (VStr "gaussian"))])]);
   set_local "baseline_objective" (lit (VStr "policy_gradient"));
   set_local "baseline_optimizer" (lit (VStr "adam"));
   call_self "unittest"
     [("reward_estimation", var "reward_estimation");
      ("baseline_policy", var "baseline_policy");
      ("baseline_objective", var "baseline_objective");
      ("baseline_optimizer", var "baseline_optimizer")]].

(** Lines 80 to 117. *)
Definition test_late_horizon_estimate : list stmt :=
  [call_self "start_tests" [("name", lit (VStr "late horizon estimate"))];

   set_local "reward_estimation" (dict
     [("horizon", lit (VInt 2)); ("estimate_horizon", lit (VStr "late"))]);
   set_local "baseline_objective" (lit (VStr "policy_gradient"));
   call_self "unittest"
     [("reward_estimation", var "reward_estimation");
      ("baseline_objective", var "baseline_objective")];

   set_local "reward_estimation" (dict
     [("horizon", lit (VInt 2)); ("estimate_horizon", lit (VStr "late"));
      ("estimate_actions", lit (VBool true))]);
   set_local "baseline_objective" (lit (VStr "policy_gradient"));
   set_local "baseline_optimizer" (lit (VStr "adam"));
   call_self "unittest"
     [("exclude_bounded_action", lit (VBool true));
      ("reward_estimation", var "reward_estimation");
      ("baseline_objective", var "baseline_objective");
      ("baseline_optimizer", var "baseline_optimizer")];

   set_local "reward_estimation" (dict
     [("horizon", lit (VInt 2)); ("estimate_horizon", lit (VStr "late"));
      ("estimate_terminal", lit (VBool true))]);
   set_local "baseline_policy" (dict
     [("network", dict [("type", lit (VStr "auto")); ("size", lit (VInt 7));
                        ("depth", lit (VInt 1)); ("internal_rnn", lit (VInt 1))])]);
   set_local "baseline_optimizer" (lit (VStr "adam"));
   call_self "unittest"
     [("reward_estimation", var "reward_estimation");
      ("baseline_policy", var "baseline_policy");
      ("baseline_optimizer", var "baseline_optimizer")];

   set_local "reward_estimation" (dict
     [("horizon", lit (VInt 2)); ("estimate_horizon", lit (VStr "late"));
      ("estimate_actions", lit (VBool true)); ("estimate_terminal", lit (VBool true))]);
   set_local "baseline_policy" (dict
     [("network", dict [("type", lit (VStr "auto")); ("size", lit (VInt 7));
                        ("depth", lit (VInt 1)); ("internal_rnn", lit (VInt 1))]);
      ("distributions", dict [("float", lit (VStr "gaussian"))])]);
   set_local "baseline_objective" (lit (VStr "policy_gradient"));
   set_local "baseline_optimizer" (lit (VStr "adam"));
   call_self "unittest"
     [("reward_estimation", var "reward_estimation");
      ("baseline_policy", var "baseline_policy");
      ("baseline_objective", var "baseline_objective");
      ("baseline_optimizer", var "baseline_optimizer")]].

(** Lines 119 to 149. *)
Definition test_advantage_estimate : list stmt :=
  [call_self "start_tests" [("name", lit (VStr "advantage estimate"))];

   set_local "reward_estimation" (dict
     [("horizon", lit (VInt 2)); ("estimate_horizon", lit (VBool false));
      ("estimate_advantage", lit (VBool true))]);
   call_self "unittest" [("reward_estimation", var "reward_estimation")];

   set_local "reward_estimation" (dict
     [("horizon", lit (VInt 2)); ("estimate_horizon", lit (VStr "early"));
      ("estimate_actions", lit (VBool true)); ("estimate_advantage", lit (VBool true))]);
   set_local "baseline_policy" (dict
     [("network", dict [("type", lit (VStr "auto")); ("size", lit (VInt 7));
                        ("depth", lit (VInt 1)); ("internal_rnn", lit (VBool false))]);
      ("distributions", dict [("float", lit (VStr "gaussian"))])]);
   set_local "baseline_optimizer" (lit (VStr "adam"));
   call_self "unittest"
     [("reward_estimation", var "reward_estimation");
      ("baseline_policy", var "baseline_policy");
      ("baseline_optimizer", var "baseline_optimizer")];

   set_local "reward_estimation" (dict
     [("horizon", lit (VInt 2)); ("estimate_horizon", lit (VStr "late"));
      ("estimate_terminal", lit (VBool true)); ("estimate_advantage", lit (VBool true))]);
   set_local "baseline_policy" (dict
     [("network", dict [("type", lit (VStr "auto")); ("size", lit (VInt 7));
                        ("depth", lit (VInt 1)); ("internal_rnn", lit (VInt 1))])]);
   set_local "baseline_objective" (lit (VStr "policy_gradient"));
   set_local "baseline_optimizer" (lit (VStr "adam"));
   call_self "unittest"
     [("reward_estimation", var "reward_estimation");
      ("baseline_policy", var "baseline_policy");
      ("baseline_objective", var "baseline_objective");
      ("baseline_optimizer", var "baseline_optimizer")]].

(** The test methods of the class. *)
Definition test_methods : list (list stmt) :=
  [test_no_horizon_estimate; test_early_horizon_estimate;
   test_late_horizon_estimate; test_advantage_estimate].

(** The scenarios of a test method: the keyword arguments of its
    [unittest] calls, in order. *)
Definition scenarios (body : list stmt) : list kwargs :=
  match run body with
  | inl _ => []
  | inr calls => map snd (filter (fun c => fst c = "unittest") calls)
  end.

Definition all_scenarios : list kwargs :=
  concat (map scenarios test_methods).

(** [d[k1][k2]] where both lookups succeed. *)
Definition dict_get2 (k1 k2 : string) (d : pyval) : option pyval :=
  match dict_get k1 d with
  | Some d' => dict_get k2 d'
  | None => None
  end.

(** Whether a scenario sets [estimate_actions=True] in its reward
    estimation. *)
Definition estimates_actions (kw : kwargs) : bool :=
  match get_item "reward_estimation" kw with
  | Some re =>
      match dict_get "estimate_actions" re with
      | Some (VBool true) => true
      | _ => false
      end
  | None => false
  end.

End TestRewardEstimation.

(** * Running the body symbolically *)

(** Each lemma runs one statement from a state given by its three
    components; the frame stays a stack of insertions over the bound
    parameters, and only expressions are evaluated. *)
Section Stepping.

Context {B : Type}.
Implicit Types (k : unit -> M B) (l attrs : gmap string pyval) (calls : list kwargs).

Lemma bind_assoc {A A'} (m : M A) (f : A -> M A') (g : A' -> M B) st :
  bind (bind m f) g st = bind m (fun x => bind (f x) g) st.
Proof. unfold bind. destruct (m st) as [st' [e|x]]; reflexivity. Qed.

Lemma run_assign x e k l attrs calls v :
  e l = inr v ->
  bind (assign x e) k (State l attrs calls) = k tt (State (<[x := v]> l) attrs calls).
Proof. intros H. unfold assign, bind, evaluate. simpl. now rewrite H. Qed.

Lemma run_setattr_self x e k l attrs calls v :
  e l = inr v ->
  bind (setattr_self x e) k (State l attrs calls)
  = k tt (State l (<[x := v]> attrs) calls).
Proof. intros H. unfold setattr_self, bind, evaluate. simpl. now rewrite H. Qed.

Lemma run_if_is_None x s1 s2 k l attrs calls v :
  l !! x = Some v ->
  bind (if_ (is_None (var x)) s1 s2) k (State l attrs calls)
  = if is_None_val v then bind s1 k (State l attrs calls)
    else bind s2 k (State l attrs calls).
Proof.
  intros H. unfold if_, bind, evaluate, is_None, var. simpl. rewrite H.
  destruct (is_None_val v); reflexivity.
Qed.

Lemma run_assert_is_None x k l attrs calls v :
  l !! x = Some v ->
  bind (assert (is_None (var x))) k (State l attrs calls)
  = if is_None_val v then k tt (State l attrs calls)
    else (State l attrs calls, inl AssertionError).
Proof.
  intros H. unfold assert, bind, evaluate, is_None, var, ret, raise. simpl. rewrite H.
  destruct (is_None_val v); reflexivity.
Qed.

Lemma run_assert_is_not_None x k l attrs calls v :
  l !! x = Some v ->
  bind (assert (is_not_None (var x))) k (State l attrs calls)
  = if is_None_val v then (State l attrs calls, inl AssertionError)
    else k tt (State l attrs calls).
Proof.
  intros H. unfold assert, bind, evaluate, is_not_None, var, ret, raise. simpl. rewrite H.
  destruct (is_None_val v); reflexivity.
Qed.

End Stepping.

Lemma run_super_init items l attrs calls kw :
  keywords items l = inr kw ->
  super_init items (State l attrs calls) = (State l attrs (calls ++ [kw]), inr tt).
Proof. intros H. unfold super_init, bind, evaluate. simpl. now rewrite H. Qed.

(** [step] runs the first statement of the goal [bind s k st = _]. *)
Ltac value_of e l :=
  let r := eval vm_compute in (e l) in
  lazymatch r with
  | inr ?v => constr:(v)
  end.

Ltac local_value l x :=
  let r := eval vm_compute in (l !! x) in
  lazymatch r with
  | Some ?v => constr:(v)
  end.

Ltac by_evaluation := vm_compute; reflexivity.

Ltac step :=
  lazymatch goal with
  | |- bind (bind ?m ?f) ?g ?st = _ =>
      rewrite (bind_assoc m f g st)
  | |- bind (assign ?x ?e) ?k (State ?l ?attrs ?calls) = _ =>
      let v := value_of e l in
      rewrite (run_assign x e k l attrs calls v ltac:(by_evaluation))
  | |- bind (setattr_self ?x ?e) ?k (State ?l ?attrs ?calls) = _ =>
      let v := value_of e l in
      rewrite (run_setattr_self x e k l attrs calls v ltac:(by_evaluation))
  | |- bind (if_ (is_None (var ?x)) ?s1 ?s2) ?k (State ?l ?attrs ?calls) = _ =>
      let v := local_value l x in
      rewrite (run_if_is_None x s1 s2 k l attrs calls v ltac:(by_evaluation))
  | |- bind (assert (is_None (var ?x))) ?k (State ?l ?attrs ?calls) = _ =>
      let v := local_value l x in
      rewrite (run_assert_is_None x k l attrs calls v ltac:(by_evaluation))
  | |- bind (assert (is_not_None (var ?x))) ?k (State ?l ?attrs ?calls) = _ =>
      let v := local_value l x in
      rewrite (run_assert_is_not_None x k l attrs calls v ltac:(by_evaluation))
  | |- super_init ?items (State ?l ?attrs ?calls) = _ =>
      let kw := value_of (keywords items) l in
      rewrite (run_super_init items l attrs calls kw ltac:(by_evaluation))
  end;
  cbv beta.

(** The run of the body, for every argument set.  The four [is None]
    tests are the only branch points; the conditional expression of line
    271 tests [critic_network] once more inside a value, so that argument
    is split by constructor. *)
Lemma construct_closed (a : Args) : construct a = closed_form a.
Proof.
  destruct a as [? ? ? ? ? mem upd ? ? ? ? ? ? cn co ? ? ? ? ? ? ? ? ? ? ? ? ? ?].
  cbv [closed_form frame_at_assert frame_262 super_kwargs memory_block update_block
       ProximalPolicyOptimization.memory ProximalPolicyOptimization.update_frequency
       ProximalPolicyOptimization.critic_network ProximalPolicyOptimization.critic_optimizer].
  unfold construct, __init__.
  (* self.spec, policy, then the test on memory *)
  do 3 step. destruct (is_None_val mem).
  (* memory, then the test on update_frequency *)
  all: do 2 step; destruct (is_None_val upd).
  (* update, the three optimizer stages, objective, the test on critic_network *)
  all: do 6 step.
  all: destruct cn; cbn [is_None_val].
  (* reward_estimation and baseline_policy, up to the assertion *)
  all: repeat step.
  all: destruct (is_None_val co).
  (* baseline_objective and the superclass call, where the assertion holds *)
  all: repeat step.
  all: reflexivity.
Qed.

(** * Sample runs

    The body evaluated on the sample calls, without the closed form. *)

Example sample_run_returns : raised sample_args = None.
Proof. vm_compute. reflexivity. Qed.

Example sample_run_optimizer :
  local "optimizer" sample_args
  = Some (VDict [("type", VStr "multi_step");
                 ("optimizer",
                  VDict [("type", VStr "subsampling_step");
                         ("optimizer",
                          VDict [("type", VStr "adam");
                                 ("learning_rate", VFloat 3e-4)]);
                         ("fraction", VFloat 0.33)]);
                 ("num_steps", VInt 10)]).
Proof. vm_compute. reflexivity. Qed.

Example sample_run_spec_agent :
  (self_dict (fst (construct sample_args)) !! "spec") ≫= dict_get "agent"
  = Some (VStr "ppo").
Proof. vm_compute. reflexivity. Qed.

Example sample_run_critic :
  raised sample_args_critic = None /\
  (exists kw, delegated sample_args_critic = [kw] /\
     get_item "baseline_policy" kw = Some (VDict [("network", VStr "auto")]) /\
     get_item "baseline_optimizer" kw = Some (VStr "adam") /\
     get_item "baseline_objective" kw
     = Some (VDict [("type", VStr "value"); ("value", VStr "state")]) /\
     get_item "reward_estimation" kw
     = Some (VDict [("horizon", VStr "episode"); ("discount", VFloat 0.99);
                    ("estimate_horizon", VStr "early");
                    ("estimate_terminal", VBool false);
                    ("estimate_advantage", VBool true)])).
Proof. split; [|eexists]; vm_compute; repeat split. Qed.

Example sample_run_network_only :
  raised sample_args_network_only = Some AssertionError /\
  delegated sample_args_network_only = [] /\
  local "baseline_policy" sample_args_network_only
  = Some (VDict [("network", VStr "auto")]) /\
  local "baseline_objective" sample_args_network_only = None.
Proof. vm_compute. repeat split. Qed.

Example sample_run_optimizer_only :
  raised sample_args_optimizer_only = Some AssertionError /\
  delegated sample_args_optimizer_only = [] /\
  local "baseline_policy" sample_args_optimizer_only = Some VNone /\
  local "baseline_objective" sample_args_optimizer_only = None.
Proof. vm_compute. repeat split. Qed.

Example sample_run_memory :
  local "memory" sample_args_memory
  = Some (VDict [("type", VStr "recent"); ("capacity", VInt 1000)]).
Proof. vm_compute. reflexivity. Qed.

(** * What a construction does *)

Lemma is_None_val_true (v : pyval) : is_None_val v = true <-> v = VNone.
Proof. destruct v; simpl; split; congruence. Qed.

Lemma is_None_val_false (v : pyval) : is_None_val v = false <-> v <> VNone.
Proof. destruct v; simpl; split; congruence. Qed.

Lemma raised_closed (a : Args) :
  raised a =
  if Bool.eqb (is_None_val (critic_network a)) (is_None_val (critic_optimizer a))
  then None else Some AssertionError.
Proof.
  unfold raised. rewrite construct_closed. unfold closed_form.
  destruct (is_None_val (critic_network a)), (is_None_val (critic_optimizer a));
    reflexivity.
Qed.

Lemma delegated_closed (a : Args) :
  delegated a =
  if is_None_val (critic_network a) then
    if is_None_val (critic_optimizer a)
    then [super_kwargs a (reward_estimation_plain a) VNone VNone]
    else []
  else
    if is_None_val (critic_optimizer a)
    then []
    else [super_kwargs a (reward_estimation_critic a) (baseline_policy_critic a)
                         baseline_objective_critic].
Proof.
  unfold delegated. rewrite construct_closed. unfold closed_form.
  destruct (is_None_val (critic_network a)), (is_None_val (critic_optimizer a));
    reflexivity.
Qed.

(** The blocks built before the critic branch are in the frame however
    the construction ends. *)
Lemma local_frame_262 (x : string) (v : pyval) (a : Args) :
  x <> "reward_estimation" -> x <> "baseline_policy" -> x <> "baseline_objective" ->
  frame_262 a !! x = Some v -> local x a = Some v.
Proof.
  intros H1 H2 H3 Hx. unfold local. rewrite construct_closed. unfold closed_form.
  destruct (is_None_val (critic_network a)), (is_None_val (critic_optimizer a));
    cbn [fst locals]; unfold frame_at_assert;
    rewrite ?lookup_insert_ne by congruence; exact Hx.
Qed.

Lemma local_optimizer (a : Args) : local "optimizer" a = Some (optimizer_block a).
Proof.
  apply local_frame_262; try discriminate.
  unfold frame_262. rewrite lookup_insert_ne by discriminate.
  apply lookup_insert_eq.
Qed.

Lemma local_memory (a : Args) : local "memory" a = Some (memory_block a).
Proof.
  apply local_frame_262; try discriminate.
  unfold frame_262. rewrite !(lookup_insert_ne _ _ "memory") by discriminate.
  apply lookup_insert_eq.
Qed.

(** * The claims *)

(** C1.  Construction fails through an assertion, and before anything is
    handed to the superclass, exactly when one of [critic_network] and
    [critic_optimizer] is [None] and the other is not; when both are [None]
    or both are given, the body raises nothing. *)
Theorem critic_assertion_exactly_on_mismatch (a : Args) :
  ((raised a = Some AssertionError /\ delegated a = []) <->
   (critic_network a = VNone /\ critic_optimizer a <> VNone) \/
   (critic_network a <> VNone /\ critic_optimizer a = VNone))
  /\
  (raised a = None <->
   (critic_network a = VNone /\ critic_optimizer a = VNone) \/
   (critic_network a <> VNone /\ critic_optimizer a <> VNone)).
Proof.
  rewrite raised_closed, delegated_closed.
  destruct (is_None_val (critic_network a)) eqn:Hn,
           (is_None_val (critic_optimizer a)) eqn:Ho;
    first [apply is_None_val_true in Hn | apply is_None_val_false in Hn];
    first [apply is_None_val_true in Ho | apply is_None_val_false in Ho];
    simpl; intuition congruence.
Qed.

(** C2.  Whatever the arguments, the [optimizer] built by the body, and
    handed to the superclass when the construction gets that far, is a
    [multi_step] stage around a [subsampling_step] stage around an [adam]
    stage, and the [adam] stage nests no further optimizer; with the four
    required arguments only, the stages carry [learning_rate=3e-4],
    [fraction=0.33] and [num_steps=10]. *)
Theorem optimizer_is_three_stage_chain :
  (forall a : Args,
    exists multi sub adam : pyval,
      local "optimizer" a = Some multi /\
      Forall (fun kw => get_item "optimizer" kw = Some multi) (delegated a) /\
      multi = VDict [("type", VStr "multi_step"); ("optimizer", sub);
                     ("num_steps", optimization_steps a)] /\
      sub = VDict [("type", VStr "subsampling_step"); ("optimizer", adam);
                   ("fraction", subsampling_fraction a)] /\
      adam = VDict [("type", VStr "adam"); ("learning_rate", learning_rate a)] /\
      dict_get "optimizer" adam = None)
  /\
  (forall s ac t b : pyval,
    exists (kw : kwargs) (multi sub adam : pyval),
      raised (default_args s ac t b) = None /\
      delegated (default_args s ac t b) = [kw] /\
      get_item "optimizer" kw = Some multi /\
      dict_keys multi = ["type"; "optimizer"; "num_steps"] /\
      dict_get "type" multi = Some (VStr "multi_step") /\
      dict_get "num_steps" multi = Some (VInt 10) /\
      dict_get "optimizer" multi = Some sub /\
      dict_keys sub = ["type"; "optimizer"; "fraction"] /\
      dict_get "type" sub = Some (VStr "subsampling_step") /\
      dict_get "fraction" sub = Some (VFloat 0.33) /\
      dict_get "optimizer" sub = Some adam /\
      dict_keys adam = ["type"; "learning_rate"] /\
      dict_get "type" adam = Some (VStr "adam") /\
      dict_get "learning_rate" adam = Some (VFloat 3e-4)).
Proof.
  split.
  - intros a.
    exists (optimizer_block a), (subsampling_stage a), (adam_stage a).
    split; [apply local_optimizer|].
    split; [|repeat split].
    rewrite delegated_closed.
    destruct (is_None_val (critic_network a)), (is_None_val (critic_optimizer a));
      repeat constructor.
  - intros s ac t b. set (a := default_args s ac t b).
    exists (super_kwargs a (reward_estimation_plain a) VNone VNone),
           (optimizer_block a), (subsampling_stage a), (adam_stage a).
    split; [rewrite raised_closed; reflexivity|].
    split; [rewrite delegated_closed; reflexivity|].
    repeat split.
Qed.

(** C3.  Without a critic (both [critic_network] and [critic_optimizer]
    are [None]) the superclass is called once, with [baseline_policy=None],
    [baseline_objective=None] and a [reward_estimation] that is exactly
    [dict(horizon='episode', discount=discount)]: it has no
    [estimate_horizon], [estimate_terminal] or [estimate_advantage] key. *)
Theorem no_critic_blocks (a : Args) :
  critic_network a = VNone ->
  critic_optimizer a = VNone ->
  exists (kw : kwargs) (re : pyval),
    raised a = None /\
    delegated a = [kw] /\
    get_item "baseline_policy" kw = Some VNone /\
    get_item "baseline_objective" kw = Some VNone /\
    get_item "reward_estimation" kw = Some re /\
    re = VDict [("horizon", VStr "episode"); ("discount", discount a)] /\
    dict_get "estimate_horizon" re = None /\
    dict_get "estimate_terminal" re = None /\
    dict_get "estimate_advantage" re = None.
Proof.
  intros Hn Ho.
  exists (super_kwargs a (reward_estimation_plain a) VNone VNone),
         (reward_estimation_plain a).
  rewrite raised_closed, delegated_closed, Hn, Ho.
  repeat split.
Qed.

Lemma no_critic_blocks_witness :
  exists (kw : kwargs) (re : pyval),
    raised sample_args = None /\
    delegated sample_args = [kw] /\
    get_item "baseline_policy" kw = Some VNone /\
    get_item "baseline_objective" kw = Some VNone /\
    get_item "reward_estimation" kw = Some re /\
    re = VDict [("horizon", VStr "episode"); ("discount", discount sample_args)] /\
    dict_get "estimate_horizon" re = None /\
    dict_get "estimate_terminal" re = None /\
    dict_get "estimate_advantage" re = None.
Proof. apply (no_critic_blocks sample_args); reflexivity. Defined.

(** C4.  With [memory=None] the [memory] block built by the body, and
    handed to the superclass when the construction gets that far, is exactly
    [dict(type='recent')], without a capacity; with [memory=n], [n] not
    [None], it is exactly [dict(type='recent', capacity=n)]. *)
Theorem memory_block_by_capacity (a : Args) :
  (memory a = VNone ->
   local "memory" a = Some (VDict [("type", VStr "recent")]) /\
   Forall (fun kw => get_item "memory" kw = Some (VDict [("type", VStr "recent")]))
          (delegated a))
  /\
  (memory a <> VNone ->
   local "memory" a = Some (VDict [("type", VStr "recent"); ("capacity", memory a)]) /\
   Forall (fun kw => get_item "memory" kw
                     = Some (VDict [("type", VStr "recent"); ("capacity", memory a)]))
          (delegated a)).
Proof.
  split; intros Hm.
  - apply is_None_val_true in Hm.
    rewrite local_memory, delegated_closed. unfold memory_block. 
    split; [now rewrite Hm|].
    destruct (is_None_val (critic_network a)), (is_None_val (critic_optimizer a));
      repeat constructor; simpl; unfold memory_block; now rewrite Hm.
  - apply is_None_val_false in Hm.
    rewrite local_memory, delegated_closed. unfold memory_block. 
    split; [now rewrite Hm|].
    destruct (is_None_val (critic_network a)), (is_None_val (critic_optimizer a));
      repeat constructor; simpl; unfold memory_block; now rewrite Hm.
Qed.

Lemma memory_block_by_capacity_witness :
  (local "memory" sample_args = Some (VDict [("type", VStr "recent")]) /\
   Forall (fun kw => get_item "memory" kw = Some (VDict [("type", VStr "recent")]))
          (delegated sample_args))
  /\
  (local "memory" sample_args_memory
   = Some (VDict [("type", VStr "recent"); ("capacity", VInt 1000)]) /\
   Forall (fun kw => get_item "memory" kw
                     = Some (VDict [("type", VStr "recent"); ("capacity", VInt 1000)]))
          (delegated sample_args_memory)).
Proof.
  split.
  - apply (proj1 (memory_block_by_capacity sample_args)). reflexivity.
  - apply (proj2 (memory_block_by_capacity sample_args_memory)). discriminate.
Defined.

(** * More of what a construction does *)



(** What holds of the keywords whatever the critic branch contributes
    holds of every superclass call. *)
Lemma Forall_delegated (P : kwargs -> Prop) (a : Args) :
  (forall re bp bo, P (super_kwargs a re bp bo)) -> Forall P (delegated a).
Proof.
  intros H. rewrite delegated_closed.
  destruct (is_None_val (critic_network a)), (is_None_val (critic_optimizer a));
    repeat constructor; apply H.
Qed.

(** A name that is not one of the three critic-dependent locals has, at
    exit, the value it has after line 262. *)
Lemma local_before_critic (x : string) (a : Args) :
  x <> "reward_estimation" -> x <> "baseline_policy" -> x <> "baseline_objective" ->
  local x a = frame_262 a !! x.
Proof.
  intros H1 H2 H3. unfold local. rewrite construct_closed. unfold closed_form.
  destruct (is_None_val (critic_network a)), (is_None_val (critic_optimizer a));
    cbn [fst locals]; unfold frame_at_assert;
    rewrite ?lookup_insert_ne by congruence; reflexivity.
Qed.

(** No parameter has the name of a local the body introduces. *)
Lemma bind_parameters_block_names (a : Args) :
  Forall (fun x => bind_parameters a !! x = None) block_names.
Proof. destruct a. repeat constructor; vm_compute; reflexivity. Qed.


(** X2.  With [update_frequency=None] the [update] block is exactly
    [dict(unit='episodes', batch_size=batch_size)], without a frequency;
    otherwise it is that block with [frequency=update_frequency] added.
    The superclass call, when the construction gets that far, receives it. *)
Theorem update_block_by_frequency (a : Args) :
  (update_frequency a = VNone ->
   let block := VDict [("unit", VStr "episodes"); ("batch_size", batch_size a)] in
   local "update" a = Some block /\
   Forall (fun kw => get_item "update" kw = Some block) (delegated a))
  /\
  (update_frequency a <> VNone ->
   let block := VDict [("unit", VStr "episodes"); ("batch_size", batch_size a);
                       ("frequency", update_frequency a)] in
   local "update" a = Some block /\
   Forall (fun kw => get_item "update" kw = Some block) (delegated a)).
Proof.
  assert (Hl : local "update" a = Some (update_block a)).
  { rewrite local_before_critic by discriminate.
    unfold frame_262. rewrite !(lookup_insert_ne _ _ "update") by discriminate.
    apply lookup_insert_eq. }
  assert (Hd : Forall (fun kw => get_item "update" kw = Some (update_block a))
                      (delegated a)).
  { apply Forall_delegated. reflexivity. }
  unfold update_block in Hl, Hd.
  split; intros Hu;
    [apply is_None_val_true in Hu | apply is_None_val_false in Hu];
    rewrite Hu in Hl, Hd; cbv zeta; split; assumption.
Qed.

Lemma update_block_by_frequency_witness :
  (local "update" sample_args
   = Some (VDict [("unit", VStr "episodes"); ("batch_size", VInt 4)]) /\
   Forall (fun kw => get_item "update" kw
                     = Some (VDict [("unit", VStr "episodes"); ("batch_size", VInt 4)]))
          (delegated sample_args))
  /\
  (local "update" sample_args_frequency
   = Some (VDict [("unit", VStr "episodes"); ("batch_size", VInt 4);
                  ("frequency", VInt 2)]) /\
   Forall (fun kw => get_item "update" kw
                     = Some (VDict [("unit", VStr "episodes"); ("batch_size", VInt 4);
                                    ("frequency", VInt 2)]))
          (delegated sample_args_frequency)).
Proof.
  split.
  - apply (proj1 (update_block_by_frequency sample_args)). reflexivity.
  - apply (proj2 (update_block_by_frequency sample_args_frequency)). discriminate.
Defined.

(** X3.  Whatever the arguments, the [policy] block is
    [dict(network=network, temperature=1.0)] and the [objective] block is
    [dict(type='policy_gradient', ratio_based=True,
    clipping_value=likelihood_ratio_clipping)], in the frame and in the
    superclass call. *)
Theorem policy_and_objective_blocks (a : Args) :
  let policy := VDict [("network", network a); ("temperature", VFloat 1.0)] in
  let objective := VDict [("type", VStr "policy_gradient"); ("ratio_based", VBool true);
                          ("clipping_value", likelihood_ratio_clipping a)] in
  local "policy" a = Some policy /\
  local "objective" a = Some objective /\
  Forall (fun kw => get_item "policy" kw = Some policy /\
                    get_item "objective" kw = Some objective) (delegated a).
Proof.
  cbv zeta. rewrite !local_before_critic by discriminate.
  split; [|split].
  - unfold frame_262. rewrite !(lookup_insert_ne _ _ "policy") by discriminate.
    apply lookup_insert_eq.
  - unfold frame_262. apply lookup_insert_eq.
  - apply Forall_delegated. intros; split; reflexivity.
Qed.



(** X5.  The reward estimation handed to the superclass always has
    [horizon='episode'] and [discount=discount], and its
    [estimate_horizon] is either absent or ['early']: the [False] of the
    conditional expression on line 271 is never produced. *)
Theorem estimate_horizon_absent_or_early (a : Args) :
  Forall (fun kw =>
            exists re : pyval,
              get_item "reward_estimation" kw = Some re /\
              dict_get "horizon" re = Some (VStr "episode") /\
              dict_get "discount" re = Some (discount a) /\
              (dict_get "estimate_horizon" re = None \/
               dict_get "estimate_horizon" re = Some (VStr "early")))
         (delegated a).
Proof.
  rewrite delegated_closed.
  destruct (is_None_val (critic_network a)), (is_None_val (critic_optimizer a));
    repeat constructor; eexists; (split; [reflexivity|]); simpl; auto.
Qed.

(** X6.  Seventeen arguments reach the superclass untouched, each under
    its own name; [buffer_observe] is always [True], and the baseline
    optimizer is the [critic_optimizer] argument as it came. *)
Theorem arguments_passed_through (a : Args) :
  Forall (fun kw =>
            Forall (fun x => get_item x kw = bind_parameters a !! x) passed_through /\
            get_item "buffer_observe" kw = Some (VBool true) /\
            get_item "baseline_optimizer" kw = Some (critic_optimizer a))
         (delegated a).
Proof.
  apply Forall_delegated. intros re bp bo.
  split; [|split; reflexivity].
  destruct a. repeat constructor; vm_compute; reflexivity.
Qed.

(** X7.  The superclass call has the same twenty-seven keywords, in the
    same order and without a repetition, whatever the arguments; the
    hyperparameters that the body folds into a block (batch size, learning
    rate, discount, the critic network, ...) are not among them. *)
Theorem superclass_keywords_fixed (a : Args) :
  Forall (fun kw =>
            map fst kw =
              ["states"; "actions"; "max_episode_timesteps"; "parallel_interactions";
               "buffer_observe"; "seed"; "recorder"; "config";
               "name"; "device"; "execution"; "saver"; "summarizer"; "preprocessing";
               "exploration"; "variable_noise"; "l2_regularization";
               "policy"; "memory"; "update"; "optimizer"; "objective";
               "reward_estimation"; "baseline_policy"; "baseline_optimizer";
               "baseline_objective"; "entropy_regularization"] /\
            NoDup (map fst kw) /\
            Forall (fun x => get_item x kw = None) folded_into_blocks)
         (delegated a).
Proof.
  apply Forall_delegated. intros re bp bo.
  split; [reflexivity|]. split.
  - simpl. compute_done.
  - repeat constructor.
Qed.


(** X9.  [memory] is the only parameter the body rebinds: any other
    parameter still has the caller's value when the body is left. *)
Theorem only_memory_is_rebound (a : Args) (x : string) (v : pyval) :
  bind_parameters a !! x = Some v ->
  x <> "memory" ->
  local x a = Some v.
Proof.
  intros Hx Hm.
  pose proof (bind_parameters_block_names a) as Hb.
  unfold block_names in Hb. rewrite !Forall_cons in Hb.
  destruct Hb as (Hp & Hu & Hopt & Hobj & Hre & Hbp & Hbo & _).
  rewrite local_before_critic by congruence.
  unfold frame_262. rewrite !lookup_insert_ne by congruence. exact Hx.
Qed.

Lemma only_memory_is_rebound_witness :
  local "discount" sample_args = Some (VFloat 0.99).
Proof.
  apply (only_memory_is_rebound sample_args "discount" (VFloat 0.99)).
  - vm_compute. reflexivity.
  - discriminate.
Defined.

(** X10.  The five blocks built before the critic branch do not depend on
    the critic arguments. *)
Theorem blocks_independent_of_critic (net opt : pyval) (a : Args) :
  Forall (fun x => local x (with_critic net opt a) = local x a)
         ["policy"; "memory"; "update"; "optimizer"; "objective"].
Proof.
  repeat constructor; rewrite !local_before_critic by discriminate;
    unfold frame_262; rewrite ?lookup_insert_eq;
    repeat (rewrite lookup_insert_ne by discriminate; rewrite ?lookup_insert_eq);
    reflexivity.
Qed.


(** * The reward-estimation scenarios *)

Import TestRewardEstimation.


(** X13.  Every scenario that estimates action values
    ([estimate_actions=True]) brings its own baseline optimizer, ['adam'],
    and stays away from the Beta distribution, for which no action value
    exists: it either excludes bounded actions or gives the baseline policy
    a Gaussian for float actions.  Five scenarios are of this kind. *)
Theorem action_value_scenarios :
  Forall (fun kw =>
            estimates_actions kw = true ->
            get_item "baseline_optimizer" kw = Some (VStr "adam") /\
            (get_item "exclude_bounded_action" kw = Some (VBool true) \/
             exists bp, get_item "baseline_policy" kw = Some bp /\
                        dict_get2 "distributions" "float" bp = Some (VStr "gaussian")))
         all_scenarios
  /\ length (filter (fun kw => estimates_actions kw = true) all_scenarios) = 5.
Proof.
  split; [|reflexivity].
  repeat apply Forall_cons_2; try apply Forall_nil_2.
  all: intros Hact; try discriminate Hact.
  all: split; [reflexivity|].
  all: first [left; reflexivity | right; eexists; split; reflexivity].
Qed.
